(** * blobstream-rollup-example: the verification pipeline of [rollup.go]

    A shallow embedding of [verify], [VerifyDataRootInclusion] and [main].
    The program is a straight-line pipeline over external collaborators
    (the Celestia RPC node, the share-layout library, the Ethereum client
    and the Blobstream contract wrapper).  The collaborators are the
    fields of a [World]; every call the program makes is appended to a
    trace together with what the collaborator answered, so that claims on
    "which calls happen, with which arguments, and what is returned" are
    statements on the value [verify w]. *)

From Stdlib Require Import ZArith Lia.
From stdpp Require Import base list strings.

#[local] Set Warnings "-register-all".

Local Open Scope Z_scope.
Local Open Scope string_scope.
Local Open Scope list_scope.

(** ** Bytes, slices and fixed-size arrays *)

Abbreviation byte := Byte.byte.
Abbreviation bytes := (list Byte.byte).

Definition byte_of_N (n : N) : byte :=
  match Byte.of_N n with Some b => b | None => Byte.x00 end.

(** The outcome of running Go code that may panic. *)
Inductive outcome (A : Type) : Type :=
| Returned (a : A)
| Panicked (msg : string).
Arguments Returned {A} a.
Arguments Panicked {A} msg.

(** The conversion of a slice [s] to the array type [[32]byte] (through an
    array pointer, dereferenced at once): it panics when
    the slice is shorter than the array; a longer slice is accepted and
    the array is its first 32 elements. *)
Definition array32 (s : bytes) : outcome bytes :=
  if (length s <? 32)%nat
  then Panicked "runtime error: cannot convert slice to array or pointer to array with length 32"
  else Returned (take 32 s).

(** The zero value of [[32]byte], what [make([][32]byte, n)] is filled with. *)
Definition zero32 : bytes := replicate 32 Byte.x00.

(** The conversion of a signed 64-bit integer to [uint64], on [Z]. *)
Definition uint64 (z : Z) : Z := z mod 2 ^ 64.

(** ** Errors *)

(** Go's [error] values as this program sees them: the two errors of
    [encoding/hex], an opaque error of a collaborator, and the value
    [fmt.Errorf(format, operand)] builds from a format ending in [%w].
    [operand] is [None] when the operand is a nil error. *)
Inductive error : Type :=
| ErrLength
| InvalidByteError (b : byte)
| errorString (s : string)
| Errorf (format : string) (operand : option error).

(** [errors.Unwrap]. *)
Definition Unwrap (e : error) : option error :=
  match e with
  | Errorf _ operand => operand
  | _ => None
  end.

(** ** [encoding/hex] *)
Module hex.

(** [reverseHexTable]: the value of a hexadecimal digit, or 0xff. *)
Definition reverseHexTable (c : byte) : N :=
  let n := Byte.to_N c in
  if ((48 <=? n) && (n <=? 57))%N then (n - 48)%N
  else if ((97 <=? n) && (n <=? 102))%N then (n - 87)%N
  else if ((65 <=? n) && (n <=? 70))%N then (n - 55)%N
  else 255%N.

(** [Decode]: pairs of digits are decoded left to right; decoding stops
    at the first byte that is no digit; a trailing single byte is an
    invalid byte when it is no digit, and an odd length otherwise.  The
    bytes decoded before an error are returned with it. *)
Fixpoint Decode (src : bytes) : bytes * option error :=
  match src with
  | [] => ([], None)
  | [p] =>
      if (15 <? reverseHexTable p)%N then ([], Some (InvalidByteError p))
      else ([], Some ErrLength)
  | p :: q :: rest =>
      let a := reverseHexTable p in
      let b := reverseHexTable q in
      if (15 <? a)%N then ([], Some (InvalidByteError p))
      else if (15 <? b)%N then ([], Some (InvalidByteError q))
      else
        let '(dst, err) := Decode rest in
        (byte_of_N (N.lor (N.shiftl a 4) b) :: dst, err)
  end.

Definition DecodeString (s : string) : bytes * option error :=
  Decode (String.list_byte_of_string s).

End hex.

(** ** The data exchanged with the collaborators

    One module per imported Go package; only the fields the program
    reads are kept.  Go's [int], [int64], [uint32] and [uint64] values
    are integers of [Z]. *)

Module merkle.
Record Proof := { Total : Z; Index : Z; LeafHash : bytes; Aunts : list bytes }.
End merkle.

Module square.
Record ShareRange := { Start : Z; End_ : Z }.
End square.

Module types.
Record Consensus := { App : Z }.
Record Block := { Version : Consensus; DataHash : bytes; Txs : list bytes }.
(** [Txs.ToSliceOfBytes()] *)
Definition ToSliceOfBytes (txs : list bytes) : list bytes := txs.
(** A share proof checks itself: [VerifyProof()] takes no argument. *)
Record ShareProof := { Data : list bytes; VerifyProof : bool }.
End types.

Module ctypes.
Record ResultTx := { Height : Z; Index : Z }.
Record ResultBlock := { Block : types.Block }.
Record ResultDataRootInclusionProof := { Proof : merkle.Proof }.
End ctypes.

Module bind.
Record CallOpts := { Pending : bool; BlockNumber : option Z }.
(** [bind.CallOpts{}] *)
Definition zero : CallOpts := {| Pending := false; BlockNumber := None |}.
End bind.

Module ethcmn.
Record Address := { Bytes : bytes }.
End ethcmn.

Module ethclient.
Record Client := { rawurl : string }.
End ethclient.

Module wrapper.
Record DataRootTuple := { Height : Z; DataRoot : bytes }.
Record BinaryMerkleProof := { SideNodes : list bytes; Key : Z; NumLeaves : Z }.
(** The binding of the Blobstream contract.  [VerifyAttestation] is a
    call of a view function: it answers and changes nothing. *)
Record Wrappers := {
  VerifyAttestation :
    bind.CallOpts -> Z -> DataRootTuple -> BinaryMerkleProof -> bool * option error }.
End wrapper.

Module http.
(** The Celestia RPC client.  Every method answers a value and an error;
    the value is meaningful when the error is nil. *)
Record HTTP := {
  Tx : bytes -> bool -> ctypes.ResultTx * option error;
  Block : Z -> ctypes.ResultBlock * option error;
  ProveShares : Z -> Z -> Z -> types.ShareProof * option error;
  DataRootInclusionProof :
    Z -> Z -> Z -> ctypes.ResultDataRootInclusionProof * option error }.
End http.

(** Everything outside the program: the constructors of the two clients,
    the share-layout function of celestia-app, go-ethereum's address
    parser and the constructor of the contract binding. *)
Record World := {
  http_New : string -> string -> http.HTTP * option error;
  square_BlobShareRange : list bytes -> Z -> Z -> Z -> square.ShareRange * option error;
  ethclient_Dial : string -> ethclient.Client * option error;
  ethcmn_HexToAddress : string -> ethcmn.Address;
  wrapper_NewWrappers : ethcmn.Address -> ethclient.Client -> wrapper.Wrappers * option error }.

(** ** The trace of a run

    One event per call the program makes, with the arguments it passed
    and the answer it received, in program order. *)
Inductive event : Type :=
| Println (msg : string)
| Fatalf (format : string) (err : error)
| DecodeStringCall (s : string) (bz : bytes) (err : option error)
| NewCall (remote wsEndpoint : string) (err : option error)
| TxCall (hash : bytes) (prove : bool) (tx : ctypes.ResultTx) (err : option error)
| BlockCall (height : Z) (block : ctypes.ResultBlock) (err : option error)
| BlobShareRangeCall (txs : list bytes) (txIndex blobIndex appVersion : Z)
    (r : square.ShareRange) (err : option error)
| ProveSharesCall (height startShare endShare : Z)
    (p : types.ShareProof) (err : option error)
| VerifyProofCall (p : types.ShareProof) (ok : bool)
| DataRootInclusionProofCall (height startBlock endBlock : Z)
    (p : ctypes.ResultDataRootInclusionProof) (err : option error)
| DialCall (url : string) (err : option error)
| HexToAddressCall (s : string) (addr : ethcmn.Address)
| NewWrappersCall (addr : ethcmn.Address) (err : option error)
| VerifyAttestationCall (opts : bind.CallOpts) (nonce : Z)
    (tuple : wrapper.DataRootTuple) (proof : wrapper.BinaryMerkleProof)
    (valid : bool) (err : option error)
| StopCall
| CloseCall.

(** A computation appends events and either returns or panics. *)
Definition M (A : Type) : Type := (list event * outcome A)%type.

Definition ret {A} (a : A) : M A := ([], Returned a).

Definition and_then {A B} (m : M A) (k : A -> M B) : M B :=
  match m with
  | (t, Returned a) => let '(t', o) := k a in (t ++ t', o)
  | (t, Panicked msg) => (t, Panicked msg)
  end.

Definition emit (e : event) : M unit := ([e], Returned tt).

(** A conversion or index expression that may panic. *)
Definition eval {A} (o : outcome A) : M A := ([], o).

(** [defer]: the deferred calls run when the rest of the function is
    left, by a return or by a panic. *)
Definition defer {A} (deferred : list event) (rest : M A) : M A :=
  (fst rest ++ deferred, snd rest).

Definition trace {A} (m : M A) : list event := fst m.
Definition result {A} (m : M A) : outcome A := snd m.

Declare Scope go_scope.
Delimit Scope go_scope with go.
Notation "x <- m ;; k" := (and_then m (fun x => k))
  (at level 100, m at next level, right associativity) : go_scope.
Notation "m ;; k" := (and_then m (fun _ => k))
  (at level 100, right associativity) : go_scope.
(** [if err != nil { return e }] followed by the rest of the function. *)
Notation "'if_err' err 'return_' e ;; k" :=
  (match err with Some _ => ret (Some e) | None => k end)
  (at level 100, err at level 0, e at next level, right associativity) : go_scope.
Local Open Scope go_scope.

(** ** The program *)

Definition txHash := "4B122452FA679F15B458271512816B933803D5870919F67969B4D62221D70346".
Definition blobIndex := 0.
Definition rpcEndpoint := "tcp://consensus.lunaroasis.net:26657".
Definition evmRPC := "https://eth-goerli.public.blastapi.io".
Definition contractAddr := "0x046120E6c6C48C05627FB369756F5f44858950a5".
Definition dataCommitmentStartBlock := 105001.
Definition dataCommitmentEndBlock := 106001.
Definition dataCommitmentNonce := 106.

(** The loop [for i, aunt := range proof.Aunts { sideNodes[i] = ... }],
    from index [i] on: each aunt is converted to an array and stored at
    its index; the first aunt that is too short panics. *)
Fixpoint range_Aunts (aunts : list bytes) (i : nat) (sideNodes : list bytes)
  : outcome (list bytes) :=
  match aunts with
  | [] => Returned sideNodes
  | aunt :: aunts' =>
      match array32 aunt with
      | Returned a => range_Aunts aunts' (S i) (<[i := a]> sideNodes)
      | Panicked msg => Panicked msg
      end
  end.

(** [big.NewInt] of [height], of [int64(nonce)], of the proof's index and
    of its total are these integers themselves. *)
Definition VerifyDataRootInclusion (blobstreamWrapper : wrapper.Wrappers)
    (height nonce : Z) (dataRoot : bytes) (proof : merkle.Proof)
  : M (bool * option error) :=
  DataRoot <- eval (array32 dataRoot) ;;
  let tuple := {| wrapper.Height := height; wrapper.DataRoot := DataRoot |} in
  sideNodes <- eval (range_Aunts (merkle.Aunts proof) 0
                       (replicate (length (merkle.Aunts proof)) zero32)) ;;
  let wrappedProof :=
    {| wrapper.SideNodes := sideNodes;
       wrapper.Key := merkle.Index proof;
       wrapper.NumLeaves := merkle.Total proof |} in
  let '(valid, err) :=
    wrapper.VerifyAttestation blobstreamWrapper bind.zero nonce tuple wrappedProof in
  emit (VerifyAttestationCall bind.zero nonce tuple wrappedProof valid err) ;;
  ret (valid, err).

(** [verify], for a transaction hash [hash]; the program runs it on the
    constant [txHash].  Each [err] below is the variable of the source,
    rebound by every call.  The [context.Background()] argument is left
    out; [int(tx.Index)] and [int(blobIndex)] change no value on a 64-bit
    platform; [&tx.Height] passes the height. *)
Definition verify_tx (hash : string) (w : World) : M (option error) :=
  emit (Println "🔍 Decoding transaction hash...") ;;
  let '(txHashBz, err) := hex.DecodeString hash in
  emit (DecodeStringCall hash txHashBz err) ;;
  if_err err return_ (Errorf "failed to decode transaction hash: %w" err) ;;
  emit (Println "🔗 Establishing connection to Celestia...") ;;
  let '(trpc, err) := http_New w rpcEndpoint "/websocket" in
  emit (NewCall rpcEndpoint "/websocket" err) ;;
  if_err err return_ (Errorf "failed to connect to Celestia: %w" err) ;;
  defer [StopCall] (
  emit (Println "📦 Fetching transaction with decoded hash from Celestia...") ;;
  let '(tx, err) := http.Tx trpc txHashBz true in
  emit (TxCall txHashBz true tx err) ;;
  if_err err return_ (Errorf "failed to fetch transaction: %w" err) ;;
  emit (Println "📦 Fetching block from Celestia...") ;;
  let '(block, err) := http.Block trpc (ctypes.Height tx) in
  emit (BlockCall (ctypes.Height tx) block err) ;;
  if_err err return_ (Errorf "failed to fetch block: %w" err) ;;
  let txs := types.ToSliceOfBytes (types.Txs (ctypes.Block block)) in
  let appVersion := types.App (types.Version (ctypes.Block block)) in
  let '(blobShareRange, err) :=
    square_BlobShareRange w txs (ctypes.Index tx) blobIndex appVersion in
  emit (BlobShareRangeCall txs (ctypes.Index tx) blobIndex appVersion blobShareRange err) ;;
  if_err err return_ (Errorf "failed to get blob share range: %w" err) ;;
  let '(shareProofs, err) :=
    http.ProveShares trpc (uint64 (ctypes.Height tx))
      (uint64 (square.Start blobShareRange)) (uint64 (square.End_ blobShareRange)) in
  emit (ProveSharesCall (uint64 (ctypes.Height tx))
          (uint64 (square.Start blobShareRange)) (uint64 (square.End_ blobShareRange))
          shareProofs err) ;;
  if_err err return_ (Errorf "failed to get share proofs: %w" err) ;;
  emit (Println "🔍 Verifying share proofs...") ;;
  emit (VerifyProofCall shareProofs (types.VerifyProof shareProofs)) ;;
  if negb (types.VerifyProof shareProofs)
  then ret (Some (Errorf "failed to verify share proofs: %w" err))
  else
  emit (Println "🔍 Generating data root inclusion proof...") ;;
  let '(dcProof, err) :=
    http.DataRootInclusionProof trpc (uint64 (ctypes.Height tx))
      dataCommitmentStartBlock dataCommitmentEndBlock in
  emit (DataRootInclusionProofCall (uint64 (ctypes.Height tx))
          dataCommitmentStartBlock dataCommitmentEndBlock dcProof err) ;;
  if_err err return_ (Errorf "failed to generate data root inclusion proof: %w" err) ;;
  emit (Println "🔗 Establishing connection to Ethereum client...") ;;
  let '(ethClient, err) := ethclient_Dial w evmRPC in
  emit (DialCall evmRPC err) ;;
  if_err err return_ (Errorf "failed to connect to Ethereum client: %w" err) ;;
  defer [CloseCall] (
  emit (Println "📦 Fetching BlobstreamX contract...") ;;
  let contractAddress := ethcmn_HexToAddress w contractAddr in
  emit (HexToAddressCall contractAddr contractAddress) ;;
  let '(blobstreamWrapper, err) := wrapper_NewWrappers w contractAddress ethClient in
  emit (NewWrappersCall contractAddress err) ;;
  if_err err return_ (Errorf "failed to fetch BlobstreamX contract: %w" err) ;;
  emit (Println "🔍 Verifying data root inclusion on BlobstreamX contract...") ;;
  _ <- VerifyDataRootInclusion blobstreamWrapper (ctypes.Height tx) dataCommitmentNonce
         (types.DataHash (ctypes.Block block)) (ctypes.Proof dcProof) ;;
  ret None)).

Definition verify (w : World) : M (option error) := verify_tx txHash w.

(** [main]: the value returned is the exit status of the process;
    [log.Fatalf] prints and exits with status 1. *)
Definition main (w : World) : M Z :=
  emit (Println "🐱 Starting the verification process...") ;;
  r <- verify w ;;
  match r with
  | Some err => emit (Fatalf "❌ Verification process failed: %v" err) ;; ret 1
  | None => emit (Println "✅ Verification process completed successfully.") ;; ret 0
  end.

(** ** Concrete worlds

    A [Script] fixes what the collaborators answer: which stage (if any)
    answers an error, whether the share proof checks, the data root and
    the aunts the node reports, and the contract's answer. *)
Record Script := {
  failing : option nat;
  proof_ok : bool;
  data_hash : bytes;
  aunts : list bytes;
  answer : bool * option error }.

Definition refused (s : Script) (stage : nat) : option error :=
  match failing s with
  | Some n => if (n =? stage)%nat then Some (errorString "connection refused") else None
  | None => None
  end.

Definition hash32 (b : byte) : bytes := replicate 32 b.

Definition world_of (s : Script) : World :=
  let block :=
    {| ctypes.Block :=
         {| types.Version := {| types.App := 1 |};
            types.DataHash := data_hash s;
            types.Txs := [[Byte.x01; Byte.x02]; [Byte.x03]] |} |} in
  let dcProof :=
    {| ctypes.Proof :=
         {| merkle.Total := 1000; merkle.Index := 499;
            merkle.LeafHash := hash32 Byte.x11; merkle.Aunts := aunts s |} |} in
  let trpc :=
    {| http.Tx := fun _ _ => ({| ctypes.Height := 105500; ctypes.Index := 1 |}, refused s 2);
       http.Block := fun _ => (block, refused s 3);
       http.ProveShares := fun _ _ _ =>
         ({| types.Data := [[Byte.x03]]; types.VerifyProof := proof_ok s |}, refused s 5);
       http.DataRootInclusionProof := fun _ _ _ => (dcProof, refused s 7) |} in
  {| http_New := fun _ _ => (trpc, refused s 1);
     square_BlobShareRange := fun _ _ _ _ =>
       ({| square.Start := 4; square.End_ := 6 |}, refused s 4);
     ethclient_Dial := fun url => ({| ethclient.rawurl := url |}, refused s 8);
     ethcmn_HexToAddress := fun _ => {| ethcmn.Bytes := replicate 20 Byte.x04 |};
     wrapper_NewWrappers := fun _ _ =>
       ({| wrapper.VerifyAttestation := fun _ _ _ _ => answer s |}, refused s 9) |}.

(** Every collaborator answers, the proofs are genuine and the contract
    accepts. *)
Definition honest : Script :=
  {| failing := None; proof_ok := true; data_hash := hash32 Byte.xaa;
     aunts := [hash32 Byte.xb1; hash32 Byte.xb2; hash32 Byte.xb3];
     answer := (true, None) |}.

Definition failing_at (n : nat) : Script :=
  {| failing := Some n; proof_ok := proof_ok honest; data_hash := data_hash honest;
     aunts := aunts honest; answer := answer honest |}.

Definition answering (a : bool * option error) : Script :=
  {| failing := None; proof_ok := true; data_hash := data_hash honest;
     aunts := aunts honest; answer := a |}.

Definition with_proof (dh : bytes) (au : list bytes) : Script :=
  {| failing := None; proof_ok := true; data_hash := dh; aunts := au;
     answer := answer honest |}.

Definition invalid_share_proof : Script :=
  {| failing := None; proof_ok := false; data_hash := data_hash honest;
     aunts := aunts honest; answer := answer honest |}.

(** ** Reading a trace *)

(** The stage of the pipeline a call belongs to; prints and the deferred
    releases belong to none. *)
Definition stage (e : event) : option nat :=
  match e with
  | DecodeStringCall _ _ _ => Some 0%nat
  | NewCall _ _ _ => Some 1%nat
  | TxCall _ _ _ _ => Some 2%nat
  | BlockCall _ _ _ => Some 3%nat
  | BlobShareRangeCall _ _ _ _ _ _ => Some 4%nat
  | ProveSharesCall _ _ _ _ _ => Some 5%nat
  | VerifyProofCall _ _ => Some 6%nat
  | DataRootInclusionProofCall _ _ _ _ _ => Some 7%nat
  | DialCall _ _ => Some 8%nat
  | HexToAddressCall _ _ | NewWrappersCall _ _ => Some 9%nat
  | VerifyAttestationCall _ _ _ _ _ _ => Some 10%nat
  | Println _ | Fatalf _ _ | StopCall | CloseCall => None
  end.

(** The stage of the attestation call. *)
Definition attestation_stage : nat := 10.

(** [failure e = Some cause] when the call [e] failed: it answered the
    error [cause = Some err], or it is a share-proof check that answered
    [false], which has no error value ([cause = None]). *)
Definition failure (e : event) : option (option error) :=
  match e with
  | DecodeStringCall _ _ (Some err) | NewCall _ _ (Some err) | TxCall _ _ _ (Some err)
  | BlockCall _ _ (Some err) | BlobShareRangeCall _ _ _ _ _ (Some err)
  | ProveSharesCall _ _ _ _ (Some err) | DataRootInclusionProofCall _ _ _ _ (Some err)
  | DialCall _ (Some err) | NewWrappersCall _ (Some err)
  | VerifyAttestationCall _ _ _ _ _ (Some err) => Some (Some err)
  | VerifyProofCall _ false => Some None
  | VerifyAttestationCall _ _ _ _ false None => Some None
  | _ => None
  end.

Definition is_release (e : event) : bool :=
  match e with StopCall | CloseCall => true | _ => false end.

(** The calls of a run, without the deferred releases. *)
Definition calls (t : list event) : list event :=
  List.filter (fun e => negb (is_release e)) t.

Definition opened_celestia (t : list event) : bool :=
  existsb (fun e => match e with NewCall _ _ None => true | _ => false end) t.
Definition opened_ethereum (t : list event) : bool :=
  existsb (fun e => match e with DialCall _ None => true | _ => false end) t.

(** The transactions located, the share ranges computed and the two
    kinds of proof requests sent in a run, in program order. *)
Definition located (t : list event) : list ctypes.ResultTx :=
  flat_map (fun e => match e with TxCall _ _ tx None => [tx] | _ => [] end) t.
Definition ranges (t : list event) : list square.ShareRange :=
  flat_map (fun e => match e with BlobShareRangeCall _ _ _ _ r None => [r] | _ => [] end) t.
Definition share_requests (t : list event) : list (Z * Z * Z) :=
  flat_map (fun ev => match ev with ProveSharesCall h s e _ _ => [(h, s, e)] | _ => [] end) t.
Definition batch_requests (t : list event) : list (Z * Z * Z) :=
  flat_map (fun ev => match ev with
                      | DataRootInclusionProofCall h s e _ _ => [(h, s, e)]
                      | _ => [] end) t.
Definition share_checks (t : list event) : list bool :=
  flat_map (fun e => match e with VerifyProofCall _ ok => [ok] | _ => [] end) t.

(** The proofs passed to the contract in a run. *)
Definition attested (t : list event)
  : list (Z * wrapper.DataRootTuple * wrapper.BinaryMerkleProof) :=
  flat_map (fun e => match e with
                     | VerifyAttestationCall _ n tu p _ _ => [(n, tu, p)]
                     | _ => [] end) t.

(** The tuple and the proof [VerifyDataRootInclusion] builds when no
    conversion panics, and the condition under which none does. *)
Definition tuple_of (height : Z) (dataRoot : bytes) : wrapper.DataRootTuple :=
  {| wrapper.Height := height; wrapper.DataRoot := take 32 dataRoot |}.

Definition wrappedProof_of (proof : merkle.Proof) : wrapper.BinaryMerkleProof :=
  {| wrapper.SideNodes := take 32 <$> merkle.Aunts proof;
     wrapper.Key := merkle.Index proof;
     wrapper.NumLeaves := merkle.Total proof |}.

Definition long_enough (dataRoot : bytes) (proof : merkle.Proof) : Prop :=
  (32 <= length dataRoot)%nat /\
  Forall (fun a => (32 <= length a)%nat) (merkle.Aunts proof).

(** A contract binding that answers [a] whatever it is asked. *)
Definition answering_wrapper (a : bool * option error) : wrapper.Wrappers :=
  {| wrapper.VerifyAttestation := fun _ _ _ _ => a |}.

Definition proof_with (au : list bytes) : merkle.Proof :=
  {| merkle.Total := 1000; merkle.Index := 499;
     merkle.LeafHash := hash32 Byte.x11; merkle.Aunts := au |}.

(** The failing calls of two runs used below. *)
Definition range_failure : event :=
  BlobShareRangeCall [[Byte.x01; Byte.x02]; [Byte.x03]] 1 0 1
    {| square.Start := 4; square.End_ := 6 |} (Some (errorString "connection refused")).

Definition decode_failure : event :=
  DecodeStringCall "4g" [] (Some (InvalidByteError Byte.x67)).

(** Both connections were opened without error and both were released. *)
Definition both_acquired_and_released (t : list event) : bool :=
  opened_celestia t && opened_ethereum t
  && existsb (fun e => match e with StopCall => true | _ => false end) t
  && existsb (fun e => match e with CloseCall => true | _ => false end) t.

(** The bytes the constant [txHash] decodes to. *)
Definition txHashBz : bytes := Eval vm_compute in fst (hex.DecodeString txHash).

(** ** Further readings of a trace *)

(** The stages of the calls of a run, in program order, and the stages
    of a run in which nothing fails: one call per stage, two for the
    contract binding (the address, then the binding). *)
Definition stages (t : list event) : list nat :=
  flat_map (fun e => match stage e with Some n => [n] | None => [] end) t.

Definition pipeline : list nat := [0; 1; 2; 3; 4; 5; 6; 7; 8; 9; 9; 10]%nat.

(** The blocks and the batch-inclusion proofs fetched in a run. *)
Definition blocks (t : list event) : list ctypes.ResultBlock :=
  flat_map (fun e => match e with BlockCall _ b None => [b] | _ => [] end) t.
Definition batch_proofs (t : list event) : list ctypes.ResultDataRootInclusionProof :=
  flat_map (fun e => match e with
                     | DataRootInclusionProofCall _ _ _ p None => [p]
                     | _ => [] end) t.

(** The format [verify] gives to the error of each call it checks. *)
Definition failure_format (e : event) : string :=
  match e with
  | DecodeStringCall _ _ _ => "failed to decode transaction hash: %w"
  | NewCall _ _ _ => "failed to connect to Celestia: %w"
  | TxCall _ _ _ _ => "failed to fetch transaction: %w"
  | BlockCall _ _ _ => "failed to fetch block: %w"
  | BlobShareRangeCall _ _ _ _ _ _ => "failed to get blob share range: %w"
  | ProveSharesCall _ _ _ _ _ => "failed to get share proofs: %w"
  | VerifyProofCall _ _ => "failed to verify share proofs: %w"
  | DataRootInclusionProofCall _ _ _ _ _ => "failed to generate data root inclusion proof: %w"
  | DialCall _ _ => "failed to connect to Ethereum client: %w"
  | NewWrappersCall _ _ => "failed to fetch BlobstreamX contract: %w"
  | _ => ""
  end.

(** The hexadecimal digits. *)
Definition hex_digits : bytes := String.list_byte_of_string "0123456789abcdefABCDEF".

Definition is_hex_digit (c : byte) : bool :=
  existsb (fun d => Byte.eqb c d) hex_digits.

(** A proof with the aunts cut to 32 bytes and another leaf hash. *)
Definition cut_proof (leafHash : bytes) (p : merkle.Proof) : merkle.Proof :=
  {| merkle.Total := merkle.Total p; merkle.Index := merkle.Index p;
     merkle.LeafHash := leafHash; merkle.Aunts := take 32 <$> merkle.Aunts p |}.

(** * Properties *)

(** ** Conversions *)


Lemma array32_long (s : bytes) : (32 <= length s)%nat -> array32 s = Returned (take 32 s).
Proof.
  intros H. unfold array32.
  destruct (Nat.ltb_spec (length s) 32); [lia | reflexivity].
Qed.

Lemma array32_returned (s a : bytes) :
  array32 s = Returned a -> (32 <= length s)%nat /\ a = take 32 s /\ length a = 32%nat.
Proof.
  unfold array32. destruct (Nat.ltb_spec (length s) 32); [discriminate |].
  intros [= <-]. repeat split; [assumption |]. rewrite length_take. lia.
Qed.

Lemma take32_exact (l : list bytes) :
  Forall (fun a => length a = 32%nat) l -> take 32 <$> l = l.
Proof.
  induction 1 as [|a l Ha _ IH]; [reflexivity |].
  rewrite fmap_cons, IH, take_ge by lia. reflexivity.
Qed.

(** ** The loop over the aunts *)

(** With the aunts before index [length done] stored already and zero
    arrays after them, the loop stores the first 32 bytes of each
    remaining aunt at its own index. *)
Lemma range_Aunts_from (aunts : list bytes) :
  forall done : list bytes,
    Forall (fun a => (32 <= length a)%nat) aunts ->
    range_Aunts aunts (length done) (done ++ replicate (length aunts) zero32)
    = Returned (done ++ (take 32 <$> aunts)).
Proof.
  induction aunts as [|aunt aunts IH]; intros done Hall; simpl.
  - reflexivity.
  - inversion Hall as [|? ? Hlen Hrest]; subst.
    rewrite (array32_long _ Hlen).
    rewrite insert_app_r_alt by lia.
    rewrite Nat.sub_diag. simpl.
    specialize (IH (done ++ [take 32 aunt]) Hrest).
    rewrite length_app in IH. simpl in IH. rewrite Nat.add_1_r in IH.
    rewrite <- !app_assoc in IH. simpl in IH. exact IH.
Qed.

Lemma range_Aunts_all (aunts : list bytes) :
  Forall (fun a => (32 <= length a)%nat) aunts ->
  range_Aunts aunts 0 (replicate (length aunts) zero32) = Returned (take 32 <$> aunts).
Proof. intros H. exact (range_Aunts_from aunts [] H). Qed.

Lemma range_Aunts_short (aunts : list bytes) :
  forall (i : nat) (sideNodes : list bytes),
    Exists (fun a => (length a < 32)%nat) aunts ->
    exists msg, range_Aunts aunts i sideNodes = Panicked msg.
Proof.
  induction aunts as [|aunt aunts IH]; intros i sideNodes Hex; simpl.
  - inversion Hex.
  - destruct (array32 aunt) as [a|msg] eqn:Ha; [| eauto].
    apply IH. inversion Hex as [? ? Hshort|]; subst; [| assumption].
    apply array32_returned in Ha. lia.
Qed.

Lemma range_Aunts_returned (aunts : list bytes) (sideNodes : list bytes) :
  range_Aunts aunts 0 (replicate (length aunts) zero32) = Returned sideNodes ->
  Forall (fun a => (32 <= length a)%nat) aunts /\ sideNodes = take 32 <$> aunts.
Proof.
  intros H.
  destruct (decide (Forall (fun a => (32 <= length a)%nat) aunts)) as [Hall|Hnot].
  - split; [assumption |]. rewrite (range_Aunts_all _ Hall) in H. congruence.
  - apply not_Forall_Exists in Hnot; [| intros a; apply _].
    assert (Hex : Exists (fun a => (length a < 32)%nat) aunts).
    { eapply Exists_impl; [exact Hnot |]. simpl. intros a Ha. lia. }
    destruct (range_Aunts_short aunts 0 (replicate (length aunts) zero32) Hex) as [msg Hp].
    congruence.
Qed.

(** ** [VerifyDataRootInclusion] *)

Section Attestation.

Variable blobstreamWrapper : wrapper.Wrappers.
Variables height nonce : Z.
Variable dataRoot : bytes.
Variable proof : merkle.Proof.

Lemma long_enough_dec : {long_enough dataRoot proof} + {~ long_enough dataRoot proof}.
Proof. unfold long_enough. exact (decide _). Qed.

Lemma VerifyDataRootInclusion_returns :
  long_enough dataRoot proof ->
  VerifyDataRootInclusion blobstreamWrapper height nonce dataRoot proof
  = (let a := wrapper.VerifyAttestation blobstreamWrapper bind.zero nonce
                (tuple_of height dataRoot) (wrappedProof_of proof) in
     ([VerifyAttestationCall bind.zero nonce (tuple_of height dataRoot)
         (wrappedProof_of proof) (fst a) (snd a)],
      Returned a)).
Proof.
  intros [Hroot Haunts]. unfold VerifyDataRootInclusion.
  rewrite (array32_long _ Hroot). simpl.
  rewrite (range_Aunts_all _ Haunts). simpl.
  fold (tuple_of height dataRoot). fold (wrappedProof_of proof).
  destruct (wrapper.VerifyAttestation _ _ _ _ _) as [valid err]. reflexivity.
Qed.

Lemma VerifyDataRootInclusion_panics :
  ~ long_enough dataRoot proof ->
  exists msg,
    VerifyDataRootInclusion blobstreamWrapper height nonce dataRoot proof
    = ([], Panicked msg).
Proof.
  intros Hnot. unfold VerifyDataRootInclusion.
  destruct (array32 dataRoot) as [a|msg] eqn:Hroot; simpl; [| eauto].
  apply array32_returned in Hroot as (Hlen & _ & _).
  destruct (range_Aunts _ _ _) as [sn|msg] eqn:Hloop; simpl; [| eauto].
  apply range_Aunts_returned in Hloop as [Hall _].
  exfalso. apply Hnot. split; assumption.
Qed.

End Attestation.

(** C8, as stated for every call, fails: with a 32-byte data root and a
    proof whose only aunt has 31 bytes, the conversion of the aunt
    panics before the contract is reached: no call is made and nothing
    is returned. *)
Lemma short_aunt_prevents_contract_call :
  let run := VerifyDataRootInclusion (answering_wrapper (true, None)) 105500 106
               (hash32 Byte.xaa) (proof_with [replicate 31 Byte.xb2]) in
  length (hash32 Byte.xaa) = 32%nat /\
  (exists msg, result run = Panicked msg) /\
  trace run = [] /\
  attested (trace run) = [].
Proof.
  simpl. split; [reflexivity |]. split; [eexists; reflexivity |].
  split; reflexivity.
Qed.

(** C8, amended: for every call with a 32-byte data root and aunts of
    at least 32 bytes each, [VerifyDataRootInclusion] makes exactly one
    call, the view call [VerifyAttestation] with empty call options, the
    nonce, the tuple [(height, dataRoot)] and the re-encoded proof, and
    returns the pair the contract answered, unchanged. *)
Theorem VerifyDataRootInclusion_calls_contract
    (bw : wrapper.Wrappers) (h n : Z) (dr : bytes) (p : merkle.Proof) :
  length dr = 32%nat ->
  Forall (fun a => (32 <= length a)%nat) (merkle.Aunts p) ->
  let tuple := {| wrapper.Height := h; wrapper.DataRoot := dr |} in
  let a := wrapper.VerifyAttestation bw bind.zero n tuple (wrappedProof_of p) in
  VerifyDataRootInclusion bw h n dr p
  = ([VerifyAttestationCall bind.zero n tuple (wrappedProof_of p) (fst a) (snd a)],
     Returned a).
Proof.
  intros Hlen Haunts.
  assert (Hok : long_enough dr p) by (split; [lia | assumption]).
  rewrite (VerifyDataRootInclusion_returns bw h n dr p Hok).
  unfold tuple_of. rewrite take_ge by lia. reflexivity.
Qed.

Lemma VerifyDataRootInclusion_calls_contract_witness :
  VerifyDataRootInclusion (answering_wrapper (false, Some ErrLength)) 105500 106
    (hash32 Byte.xaa) (proof_with [hash32 Byte.xb1; hash32 Byte.xb2])
  = ([VerifyAttestationCall bind.zero 106
        {| wrapper.Height := 105500; wrapper.DataRoot := hash32 Byte.xaa |}
        (wrappedProof_of (proof_with [hash32 Byte.xb1; hash32 Byte.xb2]))
        false (Some ErrLength)],
     Returned (false, Some ErrLength)).
Proof.
  apply (VerifyDataRootInclusion_calls_contract
           (answering_wrapper (false, Some ErrLength)) 105500 106
           (hash32 Byte.xaa) (proof_with [hash32 Byte.xb1; hash32 Byte.xb2])).
  - reflexivity.
  - simpl. repeat constructor.
Defined.

(** C9: [VerifyDataRootInclusion] panics exactly when the data root or
    some aunt is shorter than 32 bytes, and then the contract is not
    called; otherwise it returns, and what it passes to the contract is
    the first 32 bytes of the data root and of each aunt: longer inputs
    are cut, not rejected. *)
Theorem VerifyDataRootInclusion_panics_iff_short
    (bw : wrapper.Wrappers) (h n : Z) (dr : bytes) (p : merkle.Proof) :
  let run := VerifyDataRootInclusion bw h n dr p in
  ((exists msg, result run = Panicked msg) <->
   ((length dr < 32)%nat \/ Exists (fun a => (length a < 32)%nat) (merkle.Aunts p))) /\
  ((exists msg, result run = Panicked msg) -> trace run = []) /\
  (forall a, result run = Returned a ->
     a = wrapper.VerifyAttestation bw bind.zero n (tuple_of h dr) (wrappedProof_of p) /\
     attested (trace run)
     = [(n,
         {| wrapper.Height := h; wrapper.DataRoot := take 32 dr |},
         {| wrapper.SideNodes := take 32 <$> merkle.Aunts p;
            wrapper.Key := merkle.Index p;
            wrapper.NumLeaves := merkle.Total p |})]).
Proof.
  intros run. subst run.
  destruct (long_enough_dec dr p) as [Hok|Hnot].
  - rewrite (VerifyDataRootInclusion_returns bw h n dr p Hok).
    destruct Hok as [Hroot Haunts]. simpl.
    split; [| split].
    + split.
      * intros [msg Hmsg]. discriminate.
      * intros [Hshort|Hshort]; [lia |]. exfalso.
        apply Exists_exists in Hshort as (a & Hin & Ha).
        rewrite Forall_forall in Haunts. specialize (Haunts a Hin). simpl in Haunts. lia.
    + intros [msg Hmsg]. discriminate.
    + intros a [= <-]. split; reflexivity.
  - destruct (VerifyDataRootInclusion_panics bw h n dr p Hnot) as [msg ->]. simpl.
    split; [| split].
    + split; [| eauto]. intros _.
      destruct (decide (length dr < 32)%nat) as [|Hroot]; [left; assumption | right].
      destruct (decide (Exists (fun a => (length a < 32)%nat) (merkle.Aunts p)))
        as [|Hex]; [assumption |].
      exfalso. apply Hnot. split; [lia |].
      apply Forall_forall. intros a Hin.
      destruct (decide (32 <= length a)%nat) as [|Hlt]; [assumption |].
      exfalso. apply Hex. apply Exists_exists. exists a. split; [assumption | lia].
    + reflexivity.
    + intros a [=].
Qed.

Example short_data_root_panics :
  exists msg,
    VerifyDataRootInclusion (answering_wrapper (true, None)) 105500 106
      (replicate 31 Byte.xaa) (proof_with [hash32 Byte.xb1])
    = ([], Panicked msg).
Proof. eexists. reflexivity. Qed.

Example short_aunt_panics :
  exists msg,
    VerifyDataRootInclusion (answering_wrapper (true, None)) 105500 106
      (hash32 Byte.xaa) (proof_with [hash32 Byte.xb1; replicate 31 Byte.xb2])
    = ([], Panicked msg).
Proof. eexists. reflexivity. Qed.

Example long_data_root_is_cut :
  attested (trace (VerifyDataRootInclusion (answering_wrapper (true, None)) 105500 106
                     (hash32 Byte.xaa ++ [Byte.xff]) (proof_with [])))
  = [(106, {| wrapper.Height := 105500; wrapper.DataRoot := hash32 Byte.xaa |},
      wrappedProof_of (proof_with []))].
Proof. reflexivity. Qed.

(** C2, as stated, fails: an aunt of 33 bytes is passed on as its first
    32 bytes, so the side nodes differ from the aunts, and two proofs
    that differ in the 33rd byte only are re-encoded to the same proof. *)
Lemma long_aunt_is_cut :
  let p := proof_with [hash32 Byte.xb1 ++ [Byte.x01]] in
  let q := proof_with [hash32 Byte.xb1 ++ [Byte.x02]] in
  let run r := VerifyDataRootInclusion (answering_wrapper (true, None)) 105500 106
                 (hash32 Byte.xaa) r in
  exists tu wp,
    attested (trace (run p)) = [(106, tu, wp)] /\
    wrapper.SideNodes wp <> merkle.Aunts p /\
    p <> q /\ attested (trace (run q)) = [(106, tu, wp)].
Proof.
  simpl. eexists. eexists. split; [reflexivity |].
  split; [| split]; [discriminate | discriminate | reflexivity].
Qed.

(** C2, amended: the proof passed to the contract has one side node per
    aunt, in the same order, the i-th side node being the first 32 bytes
    of the i-th aunt; key and leaf count are the proof's index and total;
    when every aunt has exactly 32 bytes the side nodes are the aunts. *)
Theorem reencoding_keeps_order_and_first_32_bytes
    (bw : wrapper.Wrappers) (h n : Z) (dr : bytes) (p : merkle.Proof)
    (n' : Z) (tu : wrapper.DataRootTuple) (wp : wrapper.BinaryMerkleProof) :
  In (n', tu, wp) (attested (trace (VerifyDataRootInclusion bw h n dr p))) ->
  length (wrapper.SideNodes wp) = length (merkle.Aunts p) /\
  (forall i : nat, wrapper.SideNodes wp !! i = take 32 <$> (merkle.Aunts p !! i)) /\
  Forall (fun s => length s = 32%nat) (wrapper.SideNodes wp) /\
  wrapper.Key wp = merkle.Index p /\
  wrapper.NumLeaves wp = merkle.Total p /\
  (Forall (fun a => length a = 32%nat) (merkle.Aunts p) ->
   wrapper.SideNodes wp = merkle.Aunts p).
Proof.
  destruct (long_enough_dec dr p) as [Hok|Hnot].
  - rewrite (VerifyDataRootInclusion_returns bw h n dr p Hok).
    destruct Hok as [_ Haunts]. simpl.
    intros [[= <- <- <-]|[]]. simpl.
    repeat split.
    + apply length_fmap.
    + intros i. apply list_lookup_fmap.
    + apply Forall_fmap. eapply Forall_impl; [exact Haunts |].
      simpl. intros a Ha. rewrite length_take. lia.
    + apply take32_exact.
  - destruct (VerifyDataRootInclusion_panics bw h n dr p Hnot) as [msg ->].
    simpl. intros [].
Qed.

Lemma reencoding_keeps_order_and_first_32_bytes_witness :
  let p := proof_with [hash32 Byte.xb1; hash32 Byte.xb2 ++ [Byte.x07]] in
  let wp := wrappedProof_of p in
  length (wrapper.SideNodes wp) = length (merkle.Aunts p) /\
  (forall i : nat, wrapper.SideNodes wp !! i = take 32 <$> (merkle.Aunts p !! i)) /\
  Forall (fun s => length s = 32%nat) (wrapper.SideNodes wp) /\
  wrapper.Key wp = merkle.Index p /\
  wrapper.NumLeaves wp = merkle.Total p /\
  (Forall (fun a => length a = 32%nat) (merkle.Aunts p) ->
   wrapper.SideNodes wp = merkle.Aunts p).
Proof.
  intros p wp.
  apply (reencoding_keeps_order_and_first_32_bytes
           (answering_wrapper (true, None)) 105500 106 (hash32 Byte.xaa) p
           106 (tuple_of 105500 (hash32 Byte.xaa)) wp).
  simpl. left. reflexivity.
Defined.

(** ** [verify] *)

(** In a run of [verify] the call of [VerifyDataRootInclusion] is kept
    folded and resolved by its two lemmas. *)
Arguments VerifyDataRootInclusion : simpl never.

(** Case analysis on what the collaborators answer, in program order. *)
Ltac answer_of call :=
  match goal with
  | |- context [call ?a ?b ?c ?d] => destruct (call a b c d) as [? [?|]]
  | |- context [call ?a ?b ?c] => destruct (call a b c) as [? [?|]]
  | |- context [call ?a ?b] => destruct (call a b) as [? [?|]]
  | |- context [call ?a] => destruct (call a) as [? [?|]]
  end; cbn.

Ltac run_verify :=
  unfold verify_tx; cbn;
  try answer_of hex.DecodeString;
  try answer_of http_New;
  try answer_of http.Tx;
  try answer_of http.Block;
  try answer_of square_BlobShareRange;
  try answer_of http.ProveShares;
  try match goal with
      | |- context [types.VerifyProof ?p] => destruct (types.VerifyProof p); cbn
      end;
  try answer_of http.DataRootInclusionProof;
  try answer_of ethclient_Dial;
  try answer_of wrapper_NewWrappers;
  try match goal with
      | |- context [VerifyDataRootInclusion ?bw ?h ?n ?dr ?p] =>
          let Hlen := fresh "Hlen" in
          let msg := fresh "msg" in
          destruct (long_enough_dec dr p) as [Hlen|Hlen];
          [ rewrite (VerifyDataRootInclusion_returns bw h n dr p Hlen)
          | destruct (VerifyDataRootInclusion_panics bw h n dr p Hlen) as [msg ->] ];
          cbn
      end.

(** Splitting a hypothesis [In e [e1; ...; en]] into its cases. *)
Ltac in_cases H :=
  simpl in H;
  repeat (destruct H as [H|H]; [try subst |]); try contradiction.

(** C3: a call of a stage before the attestation call that fails ends
    the run: [verify] returns a non-nil error whose wrapped error is the
    error the call answered (none for a share-proof check that answered
    [false]); the failed call is the last call of the run, the deferred
    releases apart; no call of a later stage is in the trace; and the
    contract is never called. *)
Theorem verify_halts_at_first_failure
    (hash : string) (w : World) (ev : event) (n : nat) (cause : option error) :
  In ev (trace (verify_tx hash w)) ->
  stage ev = Some n ->
  (n < attestation_stage)%nat ->
  failure ev = Some cause ->
  (exists err, result (verify_tx hash w) = Returned (Some err) /\ Unwrap err = cause) /\
  last (calls (trace (verify_tx hash w))) = Some ev /\
  (forall (ev' : event) (m : nat),
      In ev' (trace (verify_tx hash w)) -> stage ev' = Some m -> (m <= n)%nat) /\
  attested (trace (verify_tx hash w)) = [].
Proof.
  unfold attestation_stage.
  run_verify; intros Hin Hstage Hn Hfail; in_cases Hin;
    simpl in Hstage, Hfail; try discriminate; try (injection Hstage as <-; lia);
    injection Hstage as <-; injection Hfail as <-;
    (split; [eexists; split; reflexivity |]);
    (split; [reflexivity |]);
    (split; [| reflexivity]);
    intros ev' m Hin' Hstage'; in_cases Hin'; simpl in Hstage';
    try discriminate; injection Hstage' as <-; lia.
Qed.

Ltac find_event := vm_compute; repeat first [left; reflexivity | right].

Lemma verify_halts_at_first_failure_witness :
  ((exists err,
      result (verify_tx txHash (world_of (failing_at 4))) = Returned (Some err) /\
      Unwrap err = Some (errorString "connection refused")) /\
   last (calls (trace (verify_tx txHash (world_of (failing_at 4))))) = Some range_failure /\
   (forall (ev' : event) (m : nat),
       In ev' (trace (verify_tx txHash (world_of (failing_at 4)))) ->
       stage ev' = Some m -> (m <= 4)%nat) /\
   attested (trace (verify_tx txHash (world_of (failing_at 4)))) = []) /\
  ((exists err,
      result (verify_tx "4g" (world_of honest)) = Returned (Some err) /\
      Unwrap err = Some (InvalidByteError Byte.x67)) /\
   last (calls (trace (verify_tx "4g" (world_of honest)))) = Some decode_failure /\
   (forall (ev' : event) (m : nat),
       In ev' (trace (verify_tx "4g" (world_of honest))) ->
       stage ev' = Some m -> (m <= 0)%nat) /\
   attested (trace (verify_tx "4g" (world_of honest))) = []).
Proof.
  split.
  - apply (verify_halts_at_first_failure txHash (world_of (failing_at 4)) range_failure
             4 (Some (errorString "connection refused"))).
    + find_event.
    + reflexivity.
    + unfold attestation_stage. lia.
    + reflexivity.
  - apply (verify_halts_at_first_failure "4g" (world_of honest) decode_failure
             0 (Some (InvalidByteError Byte.x67))).
    + find_event.
    + reflexivity.
    + unfold attestation_stage. lia.
    + reflexivity.
Defined.

(** C4: when the share-proof check answers [false], [verify] returns a
    non-nil error, the check is the last call of the run, and the run
    holds one share-range computation, one share-proof request and one
    check: nothing is retried and no batch proof is requested.  When it
    answers [true], the batch-inclusion proof is requested next. *)
Theorem share_proof_check_decides
    (hash : string) (w : World) (p : types.ShareProof) (ok : bool) :
  In (VerifyProofCall p ok) (trace (verify_tx hash w)) ->
  let t := trace (verify_tx hash w) in
  length (ranges t) = 1%nat /\
  length (share_requests t) = 1%nat /\
  share_checks t = [ok] /\
  if ok
  then exists h, batch_requests t = [(h, dataCommitmentStartBlock, dataCommitmentEndBlock)]
  else (exists err, result (verify_tx hash w) = Returned (Some err)) /\
       last (calls t) = Some (VerifyProofCall p false) /\
       batch_requests t = [] /\
       attested t = [].
Proof.
  run_verify; intros Hin; in_cases Hin; try discriminate;
    try (injection Hin as <- <-);
    repeat split; eauto.
Qed.

Lemma share_proof_check_decides_witness :
  let p := {| types.Data := [[Byte.x03]]; types.VerifyProof := false |} in
  let t := trace (verify_tx txHash (world_of invalid_share_proof)) in
  length (ranges t) = 1%nat /\
  length (share_requests t) = 1%nat /\
  share_checks t = [false] /\
  (exists err, result (verify_tx txHash (world_of invalid_share_proof)) = Returned (Some err)) /\
  last (calls t) = Some (VerifyProofCall p false) /\
  batch_requests t = [] /\
  attested t = [].
Proof.
  apply (share_proof_check_decides txHash (world_of invalid_share_proof)
           {| types.Data := [[Byte.x03]]; types.VerifyProof := false |} false).
  find_event.
Defined.

(** C5: in the run where the share-proof check answers [false], the
    error [verify] returns is built from a nil operand: the [err] it
    formats is the one the share-proof request answered, which is nil,
    since a request that answers an error ends the run before any check. *)
Theorem failed_share_check_wraps_nil
    (hash : string) (w : World) (p : types.ShareProof) :
  In (VerifyProofCall p false) (trace (verify_tx hash w)) ->
  result (verify_tx hash w)
  = Returned (Some (Errorf "failed to verify share proofs: %w" None)) /\
  (exists h s e, In (ProveSharesCall h s e p None) (trace (verify_tx hash w))) /\
  (forall h s e p' err,
      ~ In (ProveSharesCall h s e p' (Some err)) (trace (verify_tx hash w))).
Proof.
  run_verify; intros Hin; in_cases Hin; try discriminate;
    injection Hin as <-;
    (split; [reflexivity |]);
    (split; [do 3 eexists; simpl; do 9 right; left; reflexivity |]);
    intros h' s' e' p' err' Hin'; in_cases Hin'; discriminate.
Qed.

Lemma failed_share_check_wraps_nil_witness :
  let p := {| types.Data := [[Byte.x03]]; types.VerifyProof := false |} in
  let run := verify_tx txHash (world_of invalid_share_proof) in
  result run = Returned (Some (Errorf "failed to verify share proofs: %w" None)) /\
  (exists h s e, In (ProveSharesCall h s e p None) (trace run)) /\
  (forall h s e p' err, ~ In (ProveSharesCall h s e p' (Some err)) (trace run)).
Proof.
  apply (failed_share_check_wraps_nil txHash (world_of invalid_share_proof)
           {| types.Data := [[Byte.x03]]; types.VerifyProof := false |}).
  find_event.
Defined.


(** C6, as stated, fails: in a run where the transaction cannot be
    fetched, [verify] returns an error and the Ethereum client was
    neither dialed nor closed; only the Celestia client was opened and
    stopped. *)
Lemma early_failure_never_dials_ethereum :
  let run := verify (world_of (failing_at 2)) in
  (exists err, result run = Returned (Some err)) /\
  both_acquired_and_released (trace run) = false /\
  opened_ethereum (trace run) = false /\
  List.filter is_release (trace run) = [StopCall].
Proof. vm_compute. repeat split. eexists. reflexivity. Qed.

(** C6, amended: on every exit of [verify] (nil, an error, or a panic)
    the trace is the calls of the run followed by the releases of
    exactly the connections that were opened, the Ethereum client first:
    each opened connection is released once, after every other call.
    The Ethereum client is opened only in runs that opened the Celestia
    client and fetched the batch-inclusion proof. *)
Theorem opened_connections_are_released (hash : string) (w : World) :
  let t := trace (verify_tx hash w) in
  t = calls t
        ++ (if opened_ethereum t then [CloseCall] else [])
        ++ (if opened_celestia t then [StopCall] else []) /\
  (opened_ethereum t = true ->
   opened_celestia t = true /\
   exists h s e p, In (DataRootInclusionProofCall h s e p None) t).
Proof.
  run_verify; (split; [reflexivity |]); intros Hopen; try discriminate;
    (split; [reflexivity |]); do 4 eexists; do 13 right; left; reflexivity.
Qed.

Example panic_still_releases :
  let run := verify (world_of (with_proof (replicate 31 Byte.xaa) [])) in
  (exists msg, result run = Panicked msg) /\
  List.filter is_release (trace run) = [CloseCall; StopCall] /\
  attested (trace run) = [].
Proof. vm_compute. repeat split. eexists. reflexivity. Qed.

(** ** The compiled-in transaction hash *)

Lemma DecodeString_txHash : hex.DecodeString txHash = (txHashBz, None).
Proof. reflexivity. Qed.

(** C10: the constant [txHash] has 64 characters and decodes, without
    error, to 32 bytes; so no run of [verify] returns the error of the
    decoding branch, and every run goes on to open the Celestia client. *)
Theorem txHash_always_decodes :
  String.length txHash = 64%nat /\
  hex.DecodeString txHash = (txHashBz, None) /\
  length txHashBz = 32%nat /\
  forall w : World,
    (forall operand,
        result (verify w)
        <> Returned (Some (Errorf "failed to decode transaction hash: %w" operand))) /\
    exists err,
      take 4 (trace (verify w))
      = [Println "🔍 Decoding transaction hash...";
         DecodeStringCall txHash txHashBz None;
         Println "🔗 Establishing connection to Celestia...";
         NewCall rpcEndpoint "/websocket" err].
Proof.
  split; [reflexivity |]. split; [reflexivity |]. split; [reflexivity |].
  intros w. unfold verify, verify_tx.
  rewrite DecodeString_txHash.
  run_verify; (split; [intros operand; discriminate | eexists; reflexivity]).
Qed.

(** The decoding branch is live code for other hashes. *)
Example malformed_hash_is_rejected :
  result (verify_tx "4B1" (world_of honest))
  = Returned (Some (Errorf "failed to decode transaction hash: %w" (Some ErrLength))).
Proof. reflexivity. Qed.

(** ** The answer of the contract *)

(** Whatever the contract answers, a run that reaches it returns nil. *)
Lemma verify_ignores_attestation_answer (hash : string) (w : World) :
  attested (trace (verify_tx hash w)) <> [] ->
  result (verify_tx hash w) = Returned None.
Proof. run_verify; intros Hatt; congruence. Qed.

(** C1: in a world where every stage succeeds and the contract answers
    [false] (or an error), the contract is called, [verify] returns nil,
    and [main] exits with status 0 after printing the success line:
    the answer of the attestation stage is dropped. *)
Theorem verify_reports_success_on_rejected_attestation :
  let w := world_of (answering (false, None)) in
  let w' := world_of (answering (false, Some (errorString "execution reverted"))) in
  (exists tu p,
      In (VerifyAttestationCall bind.zero dataCommitmentNonce tu p false None)
        (trace (verify w))) /\
  result (verify w) = Returned None /\
  result (verify w') = Returned None /\
  result (main w) = Returned 0 /\
  last (trace (main w)) = Some (Println "✅ Verification process completed successfully.").
Proof.
  intros w w'. split.
  - do 2 eexists. find_event.
  - repeat split; reflexivity.
Qed.

(** The requests of the run in which every collaborator answers. *)
Example honest_run_requests :
  let t := trace (verify (world_of honest)) in
  share_requests t = [(105500, 4, 6)] /\
  batch_requests t = [(105500, 105001, 106001)] /\
  result (verify (world_of honest)) = Returned None.
Proof. vm_compute. repeat split. Qed.

(** * Further properties of the pipeline *)

(** X1: [verify] returns nil exactly in the runs that called the
    contract, and no run calls the contract twice. *)
Theorem verify_nil_iff_contract_called (hash : string) (w : World) :
  let t := trace (verify_tx hash w) in
  (result (verify_tx hash w) = Returned None <-> attested t <> []) /\
  (length (attested t) <= 1)%nat.
Proof.
  run_verify; (split; [split; [intros; congruence | intros Hatt; congruence] |]);
    simpl; lia.
Qed.

(** X2: the calls of a run are made in the order of the stages, each at
    most once: the stages of a run are an initial part of [pipeline];
    they are the whole of it exactly when [verify] returns nil. *)
Theorem stages_run_in_order (hash : string) (w : World) :
  let t := trace (verify_tx hash w) in
  stages t `prefix_of` pipeline /\
  (result (verify_tx hash w) = Returned None <-> stages t = pipeline).
Proof.
  run_verify; (split; [eexists; reflexivity |]);
    (split; [intros; first [discriminate | reflexivity]
            | intros; first [discriminate | reflexivity]]).
Qed.

(** X3: an error returned by [verify] comes from the last call of the
    run, which is a failed call of a stage before the attestation call;
    the error is [Errorf] of the format of that stage and of the error
    that call answered. *)
Theorem returned_error_names_failed_stage
    (hash : string) (w : World) (err : error) :
  result (verify_tx hash w) = Returned (Some err) ->
  exists (ev : event) (n : nat),
    last (calls (trace (verify_tx hash w))) = Some ev /\
    stage ev = Some n /\ (n < attestation_stage)%nat /\
    failure ev = Some (Unwrap err) /\
    err = Errorf (failure_format ev) (Unwrap err).
Proof.
  unfold attestation_stage.
  run_verify; intros Hres; try discriminate;
    injection Hres as <-;
    do 2 eexists; (split; [reflexivity |]); (split; [reflexivity |]);
    (split; [lia |]); split; reflexivity.
Qed.

Lemma returned_error_names_failed_stage_witness :
  exists (ev : event) (n : nat),
    last (calls (trace (verify_tx txHash (world_of (failing_at 7))))) = Some ev /\
    stage ev = Some n /\ (n < attestation_stage)%nat /\
    failure ev = Some (Some (errorString "connection refused")) /\
    Errorf "failed to generate data root inclusion proof: %w"
      (Some (errorString "connection refused"))
    = Errorf (failure_format ev) (Some (errorString "connection refused")).
Proof.
  apply (returned_error_names_failed_stage txHash (world_of (failing_at 7))
           (Errorf "failed to generate data root inclusion proof: %w"
              (Some (errorString "connection refused")))).
  reflexivity.
Defined.

(** X4: [verify] panics exactly in the runs in which the contract
    binding was obtained and the data hash of the fetched block, or an
    aunt of the fetched batch proof, is shorter than 32 bytes; the
    contract is not called in such a run. *)
Theorem verify_panics_iff_short_hash (hash : string) (w : World) :
  let t := trace (verify_tx hash w) in
  ((exists msg, result (verify_tx hash w) = Panicked msg) <->
   (exists addr block dc,
       In (NewWrappersCall addr None) t /\ blocks t = [block] /\ batch_proofs t = [dc] /\
       ~ long_enough (types.DataHash (ctypes.Block block)) (ctypes.Proof dc))) /\
  ((exists msg, result (verify_tx hash w) = Panicked msg) -> attested t = []).
Proof.
  run_verify.
  all: split; [split |].
  all: try (intros [? Hmsg]; discriminate).
  all: try (intros (addr & block & dc & Hin & _); in_cases Hin; discriminate).
  - intros (addr & block & dc & _ & [= <-] & [= <-] & Hshort). contradiction.
  - intros _. do 3 eexists. split; [do 18 right; left; reflexivity |]. repeat split. assumption.
  - eexists. reflexivity.
  - reflexivity.
Qed.

(** X5: what a run passes to the contract is the configured nonce, the
    height of the transaction located in this run (as it is, with no
    conversion), the first 32 bytes of the data hash of the block fetched
    in this run, and the re-encoding of the batch proof fetched in this
    run. *)
Theorem contract_receives_located_tuple (hash : string) (w : World) 
    (call : Z * wrapper.DataRootTuple * wrapper.BinaryMerkleProof) :
  In call (attested (trace (verify_tx hash w))) ->
  exists tx block dc,
    located (trace (verify_tx hash w)) = [tx] /\
    blocks (trace (verify_tx hash w)) = [block] /\
    batch_proofs (trace (verify_tx hash w)) = [dc] /\
    attested (trace (verify_tx hash w)) = [call] /\
    call = (dataCommitmentNonce,
            {| wrapper.Height := ctypes.Height tx;
               wrapper.DataRoot := take 32 (types.DataHash (ctypes.Block block)) |},
            {| wrapper.SideNodes := take 32 <$> merkle.Aunts (ctypes.Proof dc);
               wrapper.Key := merkle.Index (ctypes.Proof dc);
               wrapper.NumLeaves := merkle.Total (ctypes.Proof dc) |}).
Proof.
  run_verify; intros Hin; in_cases Hin.
  do 3 eexists. repeat split.
Qed.

Lemma contract_receives_located_tuple_witness :
  exists tx block dc,
    located (trace (verify_tx txHash (world_of honest))) = [tx] /\
    blocks (trace (verify_tx txHash (world_of honest))) = [block] /\
    batch_proofs (trace (verify_tx txHash (world_of honest))) = [dc] /\
    attested (trace (verify_tx txHash (world_of honest)))
    = [(106, tuple_of 105500 (hash32 Byte.xaa), wrappedProof_of (proof_with (aunts honest)))] /\
    (106, tuple_of 105500 (hash32 Byte.xaa), wrappedProof_of (proof_with (aunts honest)))
    = (dataCommitmentNonce,
       {| wrapper.Height := ctypes.Height tx;
          wrapper.DataRoot := take 32 (types.DataHash (ctypes.Block block)) |},
       {| wrapper.SideNodes := take 32 <$> merkle.Aunts (ctypes.Proof dc);
          wrapper.Key := merkle.Index (ctypes.Proof dc);
          wrapper.NumLeaves := merkle.Total (ctypes.Proof dc) |}).
Proof.
  apply (contract_receives_located_tuple txHash (world_of honest)
           (106, tuple_of 105500 (hash32 Byte.xaa),
            wrappedProof_of (proof_with (aunts honest)))).
  vm_compute. left. reflexivity.
Defined.

Ltac find_in := simpl; repeat first [left; reflexivity | right].

(** X6: every call of the locating stages uses the configured constants
    and the values obtained earlier in the same run: the client is
    opened on [rpcEndpoint] and [/websocket]; the transaction is asked
    for with the decoded hash and with its proof; the block with the
    height of the located transaction; the share range with the
    transactions and the application version of that block, the index of
    the located transaction and blob index 0; the Ethereum client is
    dialed on [evmRPC] and the binding is made for the address parsed
    from [contractAddr]. *)
Theorem calls_use_configuration_and_earlier_answers (hash : string) (w : World) :
  let t := trace (verify_tx hash w) in
  (forall r ws err, In (NewCall r ws err) t -> r = rpcEndpoint /\ ws = "/websocket") /\
  (forall bz prove tx err, In (TxCall bz prove tx err) t ->
     In (DecodeStringCall hash bz None) t /\ prove = true) /\
  (forall h block err, In (BlockCall h block err) t ->
     exists tx, located t = [tx] /\ h = ctypes.Height tx) /\
  (forall txs i b v r err, In (BlobShareRangeCall txs i b v r err) t ->
     exists tx block,
       located t = [tx] /\ blocks t = [block] /\
       txs = types.Txs (ctypes.Block block) /\ i = ctypes.Index tx /\ b = 0 /\
       v = types.App (types.Version (ctypes.Block block))) /\
  (forall url err, In (DialCall url err) t -> url = evmRPC) /\
  (forall addr err, In (NewWrappersCall addr err) t ->
     In (HexToAddressCall contractAddr addr) t /\ addr = ethcmn_HexToAddress w contractAddr).
Proof.
  run_verify.
  all: repeat match goal with |- _ /\ _ => split end.
  all: intros *; intros Hin; in_cases Hin; try discriminate; simplify_eq.
  all: try reflexivity.
  all: try (split; [find_in | reflexivity]).
  all: try (split; reflexivity).
  all: try (eexists; split; reflexivity).
  all: try (do 2 eexists; repeat split; fail).
Qed.

(** ** [main] *)

Lemma contract_called_of_nil (hash : string) (w : World) :
  result (verify_tx hash w) = Returned None -> attested (trace (verify_tx hash w)) <> [].
Proof. run_verify; intros Hres; congruence. Qed.

(** X7: [main] prints the start line, runs [verify] and then exits with
    status 0, after the success line, exactly when the contract was
    called; with status 1, after [Fatalf] of the error, exactly when
    [verify] returned an error; and it panics exactly when [verify]
    panicked, printing nothing more.  It exits with no other status. *)
Theorem main_exit_status (w : World) :
  (result (main w) = Returned 0 <-> attested (trace (verify w)) <> []) /\
  (result (main w) = Returned 1 <-> exists err, result (verify w) = Returned (Some err)) /\
  ((exists msg, result (main w) = Panicked msg) <->
   (exists msg, result (verify w) = Panicked msg)) /\
  (forall z, result (main w) = Returned z -> z = 0 \/ z = 1) /\
  trace (main w)
  = Println "🐱 Starting the verification process..."
      :: trace (verify w)
      ++ match result (verify w) with
         | Returned (Some err) => [Fatalf "❌ Verification process failed: %v" err]
         | Returned None => [Println "✅ Verification process completed successfully."]
         | Panicked _ => []
         end.
Proof.
  pose proof (verify_ignores_attestation_answer txHash w) as Hnil.
  pose proof (contract_called_of_nil txHash w) as Hcalled.
  fold (verify w) in Hnil, Hcalled. unfold main.
  destruct (verify w) as [t [[err|]|msg]]; cbn in *.
  all: repeat match goal with |- _ /\ _ => split | |- _ <-> _ => split end.
  all: try (rewrite app_nil_r); try reflexivity.
  all: try (intros [? Heq]; discriminate Heq).
  all: try (intros Heq; discriminate Heq).
  all: try (intros Hatt; specialize (Hnil Hatt); discriminate Hnil).
  all: try (intros _; apply Hcalled; reflexivity).
  all: try (intros _; eexists; reflexivity).
  all: intros z Heq;
    first [discriminate Heq
          | injection Heq as <-; first [left; reflexivity | right; reflexivity]].
Qed.

(** ** Hashes the first stage accepts *)

Lemma is_hex_digit_table (c : byte) :
  is_hex_digit c = negb (15 <? hex.reverseHexTable c)%N.
Proof. destruct c; reflexivity. Qed.

(** Decoding succeeds exactly on an even number of digits, and then
    yields one byte for two digits. *)
Lemma Decode_accepts (src : bytes) :
  ((snd (hex.Decode src) = None <->
    Nat.even (length src) = true /\ forallb is_hex_digit src = true) /\
   (snd (hex.Decode src) = None -> length src = (2 * length (fst (hex.Decode src)))%nat)) /\
  forall p : byte,
    (snd (hex.Decode (p :: src)) = None <->
     Nat.even (length (p :: src)) = true /\ forallb is_hex_digit (p :: src) = true) /\
    (snd (hex.Decode (p :: src)) = None ->
     length (p :: src) = (2 * length (fst (hex.Decode (p :: src))))%nat).
Proof.
  induction src as [|q rest [IHrest IHcons]].
  - split; [split; [split; [intros _; split; reflexivity | reflexivity] | reflexivity] |].
    intros p. simpl. destruct (15 <? hex.reverseHexTable p)%N; simpl;
      (split; [split; [discriminate | intros [? _]; discriminate] | discriminate]).
  - split; [exact (IHcons q) |].
    intros p. destruct IHrest as [Hiff Hlen].
    change (hex.Decode (p :: q :: rest))
      with (if (15 <? hex.reverseHexTable p)%N then ([], Some (InvalidByteError p))
            else if (15 <? hex.reverseHexTable q)%N then ([], Some (InvalidByteError q))
            else let '(dst, err) := hex.Decode rest in
                 (byte_of_N (N.lor (N.shiftl (hex.reverseHexTable p) 4)
                               (hex.reverseHexTable q)) :: dst, err)).
    change (forallb is_hex_digit (p :: q :: rest))
      with (is_hex_digit p && (is_hex_digit q && forallb is_hex_digit rest)).
    change (Nat.even (length (p :: q :: rest))) with (Nat.even (length rest)).
    rewrite !is_hex_digit_table.
    destruct (15 <? hex.reverseHexTable p)%N; simpl.
    { split; [split; [discriminate | intros [_ ?]; discriminate] | discriminate]. }
    destruct (15 <? hex.reverseHexTable q)%N; simpl.
    { split; [split; [discriminate | intros [_ ?]; discriminate] | discriminate]. }
    destruct (hex.Decode rest) as [dst err]. simpl in *.
    split; [exact Hiff |]. intros Herr. specialize (Hlen Herr). lia.
Qed.

(** X8: [verify] goes past its first stage and opens the Celestia client
    exactly when the hash has an even number of characters, all of them
    hexadecimal digits (of either case); the bytes it then asks the
    transaction for are half as many as the characters. *)
Theorem hash_accepted_iff_hex_digits (hash : string) (w : World) :
  let src := String.list_byte_of_string hash in
  let t := trace (verify_tx hash w) in
  ((exists err, In (NewCall rpcEndpoint "/websocket" err) t) <->
   Nat.even (length src) = true /\ forallb is_hex_digit src = true) /\
  (forall bz prove tx err,
      In (TxCall bz prove tx err) t -> length src = (2 * length bz)%nat).
Proof.
  intros src t. subst t.
  destruct (Decode_accepts src) as [[Hiff Hlen] _].
  unfold verify_tx; cbn.
  fold src. unfold hex.DecodeString. fold src.
  destruct (hex.Decode src) as [bz [e|]]; simpl in Hiff, Hlen.
  - cbn. split.
    + split.
      * intros [err Hin]. in_cases Hin; discriminate.
      * intros Hacc. apply Hiff in Hacc. discriminate.
    + intros * Hin. in_cases Hin; discriminate.
  - assert (Hacc := proj1 Hiff eq_refl). specialize (Hlen eq_refl).
    run_verify.
    all: split; [split; [intros _; exact Hacc | intros _; eexists; find_in] |].
    all: intros * Hin; in_cases Hin; try discriminate; simplify_eq; exact Hlen.
Qed.

Example odd_hash_is_refused :
  stages (trace (verify_tx "4B122452FA6" (world_of honest))) = [0%nat] /\
  stages (trace (verify_tx "4b122452fa67" (world_of honest))) = pipeline.
Proof. split; reflexivity. Qed.

(** ** What [VerifyDataRootInclusion] reads of its arguments *)

Lemma array32_take (s : bytes) : array32 (take 32 s) = array32 s.
Proof.
  unfold array32. rewrite length_take.
  destruct (Nat.ltb_spec (length s) 32) as [Hlt|Hge].
  - replace (32 `min` length s)%nat with (length s) by lia.
    destruct (Nat.ltb_spec (length s) 32); [reflexivity | lia].
  - replace (32 `min` length s)%nat with 32%nat by lia. simpl.
    rewrite take_take. reflexivity.
Qed.

Lemma range_Aunts_take (aunts : list bytes) :
  forall (i : nat) (sideNodes : list bytes),
    range_Aunts (take 32 <$> aunts) i sideNodes = range_Aunts aunts i sideNodes.
Proof.
  induction aunts as [|aunt aunts IH]; intros i sideNodes; simpl; [reflexivity |].
  rewrite array32_take. destruct (array32 aunt); [apply IH | reflexivity].
Qed.

(** X9: [VerifyDataRootInclusion] reads the data root and every aunt
    through their first 32 bytes only and never reads the leaf hash of
    the proof: cutting the data root and the aunts to 32 bytes and
    replacing the leaf hash changes neither the call it makes, nor what
    it returns, nor whether it panics. *)
Theorem VerifyDataRootInclusion_reads_first_32_bytes
    (bw : wrapper.Wrappers) (h n : Z) (dr leafHash : bytes) (p : merkle.Proof) :
  VerifyDataRootInclusion bw h n (take 32 dr) (cut_proof leafHash p)
  = VerifyDataRootInclusion bw h n dr p.
Proof.
  unfold VerifyDataRootInclusion, cut_proof. simpl.
  rewrite array32_take, range_Aunts_take, length_fmap. reflexivity.
Qed.
